(** * mcp-use: the LangChain agent glue and the pymcp data types

    A shallow embedding of

    - [src/mcpeer/agents/langchain_agent.py]: the tool-result decoder
      [_parse_mcp_tool_result], the schema normalizer
      [LangChainAgent.fix_schema], the per-tool adapter
      [McpToLangChainAdapter] and the agent wrapper [LangChainAgent];
    - [src/pymcp/types.py]: the pydantic records [Tool], [TextContent]
      and [ToolResult].

    Conventions.  A Python [str] is a [string] (the UTF-8 encoding of the
    text), [bytes] is a [list byte], [int] is [Z].  A Python [dict] is an
    association list in insertion order with pairwise distinct keys.  A
    raised exception is the left injection of a sum; code that also mutates
    an object or talks to a collaborator runs in a small state-and-exception
    monad. *)

From Stdlib Require Import String Ascii List ZArith Bool Lia.
From Stdlib Require Import Strings.Byte DecimalString.
Import ListNotations.

Local Open Scope list_scope.
Local Open Scope string_scope.

(* ===================================================================== *)
(** ** Python values that occur in a JSON schema *)
(* ===================================================================== *)

Unset Elimination Schemes.

(** What [json.loads] produces, and what a tool's [inputSchema] holds.  A
    float is kept as its 64-bit pattern; the code never computes with
    one. *)
Inductive value : Type :=
  | VNone
  | VBool (b : bool)
  | VInt (n : Z)
  | VFloat (bits : Z)
  | VStr (s : string)
  | VList (items : list value)
  | VDict (entries : list (string * value)).

Set Elimination Schemes.

Definition dict : Type := list (string * value).

(** Induction with the hypothesis available for every element of a list
    and every value of a mapping. *)
Section ValueInduction.

Variable P : value -> Prop.
Hypothesis HNone : P VNone.
Hypothesis HBool : forall b, P (VBool b).
Hypothesis HInt : forall n, P (VInt n).
Hypothesis HFloat : forall bits, P (VFloat bits).
Hypothesis HStr : forall s, P (VStr s).
Hypothesis HList : forall items, Forall P items -> P (VList items).
Hypothesis HDict :
  forall entries, Forall (fun kv => P (snd kv)) entries -> P (VDict entries).

Fixpoint value_ind (v : value) : P v :=
  match v with
  | VNone => HNone
  | VBool b => HBool b
  | VInt n => HInt n
  | VFloat bits => HFloat bits
  | VStr s => HStr s
  | VList items =>
      HList items
        ((fix all (l : list value) : Forall P l :=
            match l with
            | [] => Forall_nil _
            | x :: r => Forall_cons x (value_ind x) (all r)
            end) items)
  | VDict entries =>
      HDict entries
        ((fix all (l : dict) : Forall (fun kv => P (snd kv)) l :=
            match l with
            | [] => Forall_nil _
            | kv :: r => Forall_cons kv (value_ind (snd kv)) (all r)
            end) entries)
  end.

End ValueInduction.

(** [isinstance(v, list)] and [isinstance(v, dict)]. *)
Definition is_list (v : value) : bool :=
  match v with VList _ => true | _ => false end.

Definition is_dict (v : value) : bool :=
  match v with VDict _ => true | _ => false end.

(* --------------------------------------------------------------------- *)
(** *** The three dict operations [fix_schema] uses *)
(* --------------------------------------------------------------------- *)

(** [d.get(k)]: the value stored under [k], if any. *)
Fixpoint dict_get (k : string) (d : dict) : option value :=
  match d with
  | [] => None
  | (k', v) :: r => if String.eqb k k' then Some v else dict_get k r
  end.

(** [d[k] = v]: an existing key keeps its position, a new key goes last. *)
Fixpoint dict_set (k : string) (v : value) (d : dict) : dict :=
  match d with
  | [] => [(k, v)]
  | (k', v') :: r =>
      if String.eqb k k' then (k', v) :: r else (k', v') :: dict_set k v r
  end.

(** [del d[k]], used by the source only under the test [k in d]. *)
Fixpoint dict_del (k : string) (d : dict) : dict :=
  match d with
  | [] => []
  | (k', v') :: r =>
      if String.eqb k k' then dict_del k r else (k', v') :: dict_del k r
  end.

(** [for key, value in d.items(): d[key] = f(value)]: every value is
    replaced in place, keys and their order stay. *)
Definition map_values (f : value -> value) (d : dict) : dict :=
  map (fun kv => (fst kv, f (snd kv))) d.

(* --------------------------------------------------------------------- *)
(** *** [LangChainAgent.fix_schema] *)
(* --------------------------------------------------------------------- *)

(** [{"type": t}], one per entry of a list-valued [type]. *)
Definition single_type (t : value) : value := VDict [("type", t)].

(** Lines 107-109: the rewrite of one mapping.
<<
    if "type" in schema and isinstance(schema["type"], list):
        schema["anyOf"] = [{"type": t} for t in schema["type"]]
        del schema["type"]
>> *)
Definition rewrite_type (schema : dict) : dict :=
  match dict_get "type" schema with
  | Some (VList ts) =>
      dict_del "type" (dict_set "anyOf" (VList (map single_type ts)) schema)
  | _ => schema
  end.

(** How many mappings are nested inside one another through mapping values;
    this bounds the recursion of [fix_schema], which does not enter lists. *)
Fixpoint depth (v : value) : nat :=
  match v with
  | VDict entries =>
      S (list_max (map (fun kv => depth (snd kv)) entries))
  | _ => 0
  end.

(** The body of [fix_schema], lines 106-112, with the recursion depth as
    an explicit bound.
<<
    if isinstance(schema, dict):
        ...
        for key, value in schema.items():
            schema[key] = self.fix_schema(value)
    return schema
>>
    The source updates [schema] in place and returns the same object; on a
    schema without shared sub-objects (anything decoded from JSON) the
    updated object is the value computed here. *)
Fixpoint fix_schema_fuel (fuel : nat) (schema : value) : value :=
  match fuel with
  | O => schema
  | S fuel' =>
      match schema with
      | VDict entries =>
          VDict (map_values (fix_schema_fuel fuel') (rewrite_type entries))
      | _ => schema
      end
  end.

Definition fix_schema (schema : value) : value :=
  fix_schema_fuel (depth schema) schema.

(** A list-valued [type] field can sit in a mapping at any place.  [list_type_free] follows mapping values only, which is where
    [fix_schema] recurses; [deep_list_type_free] also looks inside lists. *)
Definition has_list_type (d : dict) : bool :=
  match dict_get "type" d with
  | Some (VList _) => true
  | _ => false
  end.

Fixpoint list_type_free (v : value) : bool :=
  match v with
  | VDict entries =>
      negb (has_list_type entries)
      && forallb (fun kv => list_type_free (snd kv)) entries
  | _ => true
  end.

Fixpoint deep_list_type_free (v : value) : bool :=
  match v with
  | VDict entries =>
      negb (has_list_type entries)
      && forallb (fun kv => deep_list_type_free (snd kv)) entries
  | VList items => forallb deep_list_type_free items
  | _ => true
  end.

(** A value as Python can hold it: the keys of every mapping are pairwise
    distinct. *)
#[warning="-register-all"]
Inductive wf_value : value -> Prop :=
  | wf_None : wf_value VNone
  | wf_Bool b : wf_value (VBool b)
  | wf_Int n : wf_value (VInt n)
  | wf_Float bits : wf_value (VFloat bits)
  | wf_Str s : wf_value (VStr s)
  | wf_List items : Forall wf_value items -> wf_value (VList items)
  | wf_Dict entries :
      NoDup (map fst entries) ->
      Forall (fun kv => wf_value (snd kv)) entries ->
      wf_value (VDict entries).

(* ===================================================================== *)
(** ** [src/pymcp/types.py] *)
(* ===================================================================== *)

Module Types.

(** [class Tool(BaseModel)] *)
Record Tool : Type := {
  name : string;
  description : option string;
  inputSchema : dict;
  outputSchema : option dict
}.

(** [class TextContent(BaseModel)] *)
Record TextContent : Type := {
  type : string;
  text : string;
  mime_type : option string
}.

(** [class ToolResult(BaseModel)]; an element of [content] is a
    [TextContent] or a plain mapping. *)
Record ToolResult : Type := {
  content : list (TextContent + dict);
  isError : bool
}.

(** A keyword argument left out of a constructor call is [None] here and
    takes the default the class body gives the field. *)
Definition default {A : Type} (given : option A) (dflt : A) : A :=
  match given with
  | Some x => x
  | None => dflt
  end.

(** [Tool(name=..., description=..., inputSchema=..., outputSchema=...)] *)
Definition new_Tool (name : string) (description : option (option string))
    (inputSchema : option dict) (outputSchema : option (option dict)) : Tool :=
  {| name := name;
     description := default description None;
     inputSchema := default inputSchema [];
     outputSchema := default outputSchema None |}.

(** [TextContent(text=..., type=..., mime_type=...)] *)
Definition new_TextContent (text : string) (type : option string)
    (mime_type : option (option string)) : TextContent :=
  {| type := default type "text";
     text := text;
     mime_type := default mime_type (Some "text/plain") |}.

(** [ToolResult(content=..., isError=...)]: [isError: bool = False]. *)
Definition new_ToolResult (content : list (TextContent + dict))
    (isError : option bool) : ToolResult :=
  {| content := content;
     isError := default isError false |}.

End Types.

(* ===================================================================== *)
(** ** Exceptions *)
(* ===================================================================== *)

(** The instances of [Exception] that the code raises or lets through;
    these are what [except Exception] catches.  [OtherError] stands for any
    connector-defined error, with its class name and its description.
    Signals outside [Exception] (task cancellation, interpreter exit) are
    not part of the embedding. *)
Inductive exn : Type :=
  | ToolException (msg : string)
  | NotImplementedError (msg : string)
  | RuntimeError (msg : string)
  | AttributeError (class_name attribute : string)
  | UnicodeDecodeError (encoding : string) (object : list byte)
      (start stop : nat) (reason : string)
  | OtherError (class_name : string) (description : string).

(** [%zd] of a position. *)
Definition decimal (n : nat) : string :=
  NilEmpty.string_of_uint (Nat.to_uint n).

Definition hex_digit (n : N) : string :=
  match String.get (N.to_nat n) "0123456789abcdef" with
  | Some c => String c ""
  | None => ""
  end.

(** [%02x] of a byte. *)
Definition hex2 (b : byte) : string :=
  hex_digit (Byte.to_N b / 16) ++ hex_digit (Byte.to_N b mod 16).

(** [str(e)].  [AttributeError] is worded as attribute lookup words it,
    ['C' object has no attribute 'a'], for an object of class [C];
    [UnicodeDecodeError] as its [__str__] does from the five fields: one
    offending byte is shown with its position, several by their range. *)
Definition exn_str (e : exn) : string :=
  match e with
  | ToolException msg => msg
  | NotImplementedError msg => msg
  | RuntimeError msg => msg
  | AttributeError class_name attribute =>
      "'" ++ class_name ++ "' object has no attribute '" ++ attribute ++ "'"
  | UnicodeDecodeError encoding object start stop reason =>
      if (start <? length object)%nat && (stop =? start + 1)%nat then
        "'" ++ encoding ++ "' codec can't decode byte 0x"
        ++ hex2 (nth start object x00) ++ " in position " ++ decimal start
        ++ ": " ++ reason
      else
        "'" ++ encoding ++ "' codec can't decode bytes in position "
        ++ decimal start ++ "-" ++ decimal (stop - 1) ++ ": " ++ reason
  | OtherError _ description => description
  end.

Definition result (A : Type) : Type := (exn + A)%type.

(* ===================================================================== *)
(** ** [bytes.decode()] *)
(* ===================================================================== *)

Definition byte_in (lo hi : N) (b : byte) : bool :=
  ((lo <=? Byte.to_N b) && (Byte.to_N b <=? hi))%N.

Definition continuation : byte -> bool := byte_in 0x80 0xBF.

(** Second byte of a three-byte form: no overlong encodings, no
    surrogates. *)
Definition second_of_three (b0 b1 : byte) : bool :=
  if byte_in 0xE0 0xE0 b0 then byte_in 0xA0 0xBF b1
  else if byte_in 0xED 0xED b0 then byte_in 0x80 0x9F b1
  else continuation b1.

(** Second byte of a four-byte form: no overlong encodings, nothing above
    U+10FFFF. *)
Definition second_of_four (b0 b1 : byte) : bool :=
  if byte_in 0xF0 0xF0 b0 then byte_in 0x90 0xBF b1
  else if byte_in 0xF4 0xF4 b0 then byte_in 0x80 0x8F b1
  else continuation b1.

(** Well-formed UTF-8, which is what the strict codec accepts. *)
Fixpoint utf8_valid (bs : list byte) : bool :=
  match bs with
  | [] => true
  | b0 :: r0 =>
      if byte_in 0x00 0x7F b0 then utf8_valid r0
      else
        match r0 with
        | [] => false
        | b1 :: r1 =>
            if byte_in 0xC2 0xDF b0 then continuation b1 && utf8_valid r1
            else
              match r1 with
              | [] => false
              | b2 :: r2 =>
                  if byte_in 0xE0 0xEF b0 then
                    second_of_three b0 b1 && continuation b2 && utf8_valid r2
                  else
                    match r2 with
                    | [] => false
                    | b3 :: r3 =>
                        byte_in 0xF0 0xF4 b0 && second_of_four b0 b1
                        && continuation b2 && continuation b3
                        && utf8_valid r3
                    end
              end
        end
  end.

(** What the strict codec reports about the first ill-formed sequence:
    where it starts, where the reported range ends, and why. *)
Record decode_error : Type := {
  err_start : nat;
  err_end : nat;
  err_reason : string
}.

Definition unexpected_end (start stop : nat) : option decode_error :=
  Some {| err_start := start; err_end := stop;
          err_reason := "unexpected end of data" |}.

Definition invalid_continuation (start stop : nat) : option decode_error :=
  Some {| err_start := start; err_end := stop;
          err_reason := "invalid continuation byte" |}.

Definition invalid_start (start : nat) : option decode_error :=
  Some {| err_start := start; err_end := start + 1;
          err_reason := "invalid start byte" |}.

(** The first error of CPython's UTF-8 decoder in [bs], which begins at
    offset [pos] of the whole object.  A sequence cut short by the end of
    the data is reported up to that end; a lead byte that cannot start a
    sequence is reported alone; a sequence broken at its n-th continuation
    byte is reported up to, and without, that byte. *)
Fixpoint utf8_error (pos : nat) (bs : list byte) : option decode_error :=
  match bs with
  | [] => None
  | b0 :: r0 =>
      if byte_in 0x00 0x7F b0 then utf8_error (pos + 1) r0
      else if byte_in 0xC2 0xDF b0 then
        match r0 with
        | [] => unexpected_end pos (pos + 1)
        | b1 :: r1 =>
            if continuation b1 then utf8_error (pos + 2) r1
            else invalid_continuation pos (pos + 1)
        end
      else if byte_in 0xE0 0xEF b0 then
        match r0 with
        | [] => unexpected_end pos (pos + 1)
        | b1 :: r1 =>
            if negb (second_of_three b0 b1) then
              invalid_continuation pos (pos + 1)
            else
              match r1 with
              | [] => unexpected_end pos (pos + 2)
              | b2 :: r2 =>
                  if continuation b2 then utf8_error (pos + 3) r2
                  else invalid_continuation pos (pos + 2)
              end
        end
      else if byte_in 0xF0 0xF4 b0 then
        match r0 with
        | [] => unexpected_end pos (pos + 1)
        | b1 :: r1 =>
            if negb (second_of_four b0 b1) then
              invalid_continuation pos (pos + 1)
            else
              match r1 with
              | [] => unexpected_end pos (pos + 2)
              | b2 :: r2 =>
                  if negb (continuation b2) then
                    invalid_continuation pos (pos + 2)
                  else
                    match r2 with
                    | [] => unexpected_end pos (pos + 3)
                    | b3 :: r3 =>
                        if continuation b3 then utf8_error (pos + 4) r3
                        else invalid_continuation pos (pos + 3)
                    end
              end
        end
      else invalid_start pos
  end.

(** [b.decode()] with the default codec and error handler: the text whose
    UTF-8 encoding is [b], or [UnicodeDecodeError] for the first
    ill-formed sequence. *)
Definition bytes_decode (b : list byte) : result string :=
  match utf8_error 0 b with
  | None => inr (string_of_list_byte b)
  | Some err =>
      inl (UnicodeDecodeError "utf-8" b (err_start err) (err_end err)
                              (err_reason err))
  end.

(* ===================================================================== *)
(** ** The tool-result decoder *)
(* ===================================================================== *)

(** [resource.blob]: a [bytes] object, or anything else, of which the
    decoder only takes [str(...)]. *)
Inductive blob : Type :=
  | BlobBytes (b : list byte)
  | BlobOther (str_of : string).

(** [item.resource]: the name of its class and the attributes the decoder
    reads.  The decoder asks [hasattr] for [text] and [blob] and reads
    [type] without asking, so each of the three may be missing; [res_type]
    is the attribute as an f-string prints it. *)
Record Resource : Type := {
  res_class : string;
  res_type : option string;
  res_text : option string;
  res_blob : option blob
}.

(** One element of [tool_result.content]: the name of its class, its
    [type] tag, the attributes the decoder reads (a missing one is [None])
    and its [repr]. *)
Record ContentItem : Type := {
  item_class : string;
  item_type : string;
  item_text : option string;
  item_data : option string;
  item_resource : option Resource;
  item_repr : string
}.

(** [mcp.types.CallToolResult] as the decoder reads it. *)
Record CallToolResult : Type := {
  content : list ContentItem;
  isError : bool
}.

(** A [TextContent] with text [s] that prints as [repr]. *)
Definition text_item (s repr : string) : ContentItem :=
  {| item_class := "TextContent"; item_type := "text";
     item_text := Some s; item_data := None;
     item_resource := None; item_repr := repr |}.

(** An [EmbeddedResource] around [r] that prints as [repr]. *)
Definition resource_item (r : Resource) (repr : string) : ContentItem :=
  {| item_class := "EmbeddedResource"; item_type := "resource";
     item_text := None; item_data := None;
     item_resource := Some r; item_repr := repr |}.

(** [str(content)] of a list: the [repr] of every element, comma-separated,
    in brackets.  This is what [{tool_result.content}] and
    [{tool_result.content!r}] both put into an f-string. *)
Definition content_str (content : list ContentItem) : string :=
  "[" ++ String.concat ", " (map item_repr content) ++ "]".

(** Reading attribute [attribute], which may be absent, of an object of
    class [class_name]. *)
Definition getattr {A : Type} (class_name attribute : string)
    (field : option A) : result A :=
  match field with
  | Some x => inr x
  | None => inl (AttributeError class_name attribute)
  end.

(** Lines 43-64: what one item contributes to [decoded_result], or the
    exception its branch raises. *)
Definition decode_item (item : ContentItem) : result string :=
  if item_type item =? "text" then
    getattr (item_class item) "text" (item_text item)
  else if item_type item =? "image" then
    getattr (item_class item) "data" (item_data item)
  else if item_type item =? "resource" then
    match getattr (item_class item) "resource" (item_resource item) with
    | inl e => inl e
    | inr resource =>
        match res_text resource with
        | Some text => inr text
        | None =>
            match res_blob resource with
            | Some (BlobBytes b) => bytes_decode b
            | Some (BlobOther str_of) => inr str_of
            | None =>
                match getattr (res_class resource) "type"
                              (res_type resource) with
                | inl e => inl e
                | inr kind =>
                    inl (ToolException ("Unexpected resource type: " ++ kind))
                end
            end
        end
    end
  else inl (ToolException ("Unexpected content type: " ++ item_type item)).

(** Lines 41-66: the loop [for item in tool_result.content], with
    [decoded_result] as the accumulator. *)
Fixpoint decode_items (decoded_result : string) (items : list ContentItem)
    : result string :=
  match items with
  | [] => inr decoded_result
  | item :: rest =>
      match decode_item item with
      | inl e => inl e
      | inr piece => decode_items (decoded_result ++ piece) rest
      end
  end.

(** Lines 22-66. *)
Definition _parse_mcp_tool_result (tool_result : CallToolResult) : result string :=
  if isError tool_result then
    inl (ToolException
           ("Tool execution failed: " ++ content_str (content tool_result)))
  else
    match content tool_result with
    | [] => inl (ToolException "Tool execution returned no content")
    | _ :: _ => decode_items "" (content tool_result)
    end.

(* ===================================================================== *)
(** ** Calls to collaborators *)
(* ===================================================================== *)

(** What the adapter and the agent do to the outside world: a tool call
    made through the connector, and a run of the agent-execution loop. *)
Inductive event : Type :=
  | CallTool (name : string) (arguments : dict)
  | Invoke (max_iterations : Z) (input : string) (chat_history : list value).

Definition trace : Type := list event.

(** A computation that may raise and that changes a state [S]; the state
    a raising computation leaves behind is kept. *)
Definition M (S A : Type) : Type := S -> result A * S.

Definition ret {S A : Type} (x : A) : M S A := fun s => (inr x, s).

Definition raise {S A : Type} (e : exn) : M S A := fun s => (inl e, s).

Definition bind {S A B : Type} (m : M S A) (k : A -> M S B) : M S B :=
  fun s =>
    match m s with
    | (inr x, s') => k x s'
    | (inl e, s') => (inl e, s')
    end.

(** [try: body / except Exception as e: handler(e)] *)
Definition try_except {S A : Type} (body : M S A) (handler : exn -> M S A)
    : M S A :=
  fun s =>
    match body s with
    | (inr x, s') => (inr x, s')
    | (inl e, s') => handler e s'
    end.

(** A computation without effect on the state. *)
Definition pure {S A : Type} (r : result A) : M S A := fun s => (r, s).

Declare Scope py_scope.
Delimit Scope py_scope with py.
Notation "x <- m ;; k" := (bind m (fun x => k))
  (at level 61, m at next level, right associativity) : py_scope.

(** Modelled from the spec: [BaseConnector] of [mcpeer/connectors/base.py],
    which is not among the sources.  "Must expose (a) a readable collection
    of Tool descriptors, and (b) an asynchronous tool-invocation operation
    taking a tool name and argument mapping, returning a ToolResult-shaped
    value or failing with a connector-defined error."  What the server
    answers may depend on everything that happened before. *)
Record BaseConnector : Type := {
  conn_tools : list Types.Tool;
  conn_answer : trace -> string -> dict -> result CallToolResult
}.

(** [await connector.call_tool(name, arguments)]: the call is recorded,
    then it returns or raises as the connector decides. *)
Definition call_tool (c : BaseConnector) (name : string) (arguments : dict)
    : M trace CallToolResult :=
  fun tr => (conn_answer c tr name arguments, (tr ++ [CallTool name arguments])%list).

(* ===================================================================== *)
(** ** [McpToLangChainAdapter] *)
(* ===================================================================== *)

Module Adapter.

(** The fields the class body binds (lines 128-135).  [args_schema] is
    the normalized schema that [jsonschema_to_pydantic] compiles. *)
Record t : Type := {
  name : string;
  description : string;
  args_schema : value;
  connector : BaseConnector;
  handle_tool_error : bool
}.

(** Lines 127-135 and 180: the adapter built for [tool]. *)
Definition make (local_connector : BaseConnector) (tool : Types.Tool) : t :=
  {| name := if Types.name tool =? "" then "NO NAME" else Types.name tool;
     description :=
       match Types.description tool with
       | Some d => d
       | None => ""
       end;
     args_schema := fix_schema (VDict (Types.inputSchema tool));
     connector := local_connector;
     handle_tool_error := true |}.

(** Lines 137-144. *)
Definition _run (self : t) (kwargs : dict) : M trace string :=
  raise (NotImplementedError "MCP tools only support async operations").

(** Lines 146-178; the two logger calls are left out. *)
Definition _arun (self : t) (kwargs : dict) : M trace string :=
  try_except
    (tool_result <- call_tool (connector self) (name self) kwargs ;;
     try_except
       (pure (_parse_mcp_tool_result tool_result))
       (fun e =>
          ret ("Error parsing result: " ++ exn_str e ++ "; Raw content: "
               ++ content_str (content tool_result))))%py
    (fun e =>
       if handle_tool_error self then
         ret ("Error executing MCP tool: " ++ exn_str e)
       else raise e).

End Adapter.

(* ===================================================================== *)
(** ** [LangChainAgent] *)
(* ===================================================================== *)

(** Modelled from the spec: [BaseLanguageModel] together with the
    tool-calling loop of the agent framework, neither of which is among the
    sources.  "Any object satisfying the capability: can be driven by the
    agent-framework's tool-calling loop."  Given what happened so far, the
    tools, the step limit, the input and the prior conversation, the loop
    ends with an output or an exception, after the events it caused. *)
Record BaseLanguageModel : Type := {
  drive : trace -> list Adapter.t -> Z -> string -> list value
          -> result string * list event
}.

(** [AgentExecutor(agent=..., tools=..., max_iterations=..., verbose=True)];
    the prompt is a constant of [_create_agent]. *)
Record AgentExecutor : Type := {
  executor_llm : BaseLanguageModel;
  executor_tools : list Adapter.t;
  max_iterations : Z
}.

(** [executor.max_iterations = n] *)
Definition set_max_iterations (n : Z) (executor : AgentExecutor) : AgentExecutor :=
  {| executor_llm := executor_llm executor;
     executor_tools := executor_tools executor;
     max_iterations := n |}.

(** [(await executor.ainvoke({"input": ..., "chat_history": ...}))["output"]]:
    the run is recorded together with the step limit it runs under. *)
Definition ainvoke (executor : AgentExecutor) (input : string)
    (chat_history : list value) : M trace string :=
  fun tr =>
    let '(output, caused) :=
      drive (executor_llm executor) tr (executor_tools executor)
            (max_iterations executor) input chat_history in
    (output,
     (tr ++ Invoke (max_iterations executor) input chat_history :: caused)%list).

Module Agent.

(** The attributes [__init__] sets (lines 86-90). *)
Record t : Type := {
  connector : BaseConnector;
  llm : BaseLanguageModel;
  max_steps : Z;
  tools : list Adapter.t;
  agent : option AgentExecutor
}.

(** [LangChainAgent(connector, llm, max_steps=5)] *)
Definition __init__ (connector : BaseConnector) (llm : BaseLanguageModel)
    (max_steps : option Z) : t :=
  {| connector := connector;
     llm := llm;
     max_steps := match max_steps with Some n => n | None => 5%Z end;
     tools := [];
     agent := None |}.

(** Lines 114-184. *)
Definition _create_langchain_tools (self : t) : list Adapter.t :=
  map (Adapter.make (connector self)) (conn_tools (connector self)).

(** Lines 186-207. *)
Definition _create_agent (self : t) : AgentExecutor :=
  {| executor_llm := llm self;
     executor_tools := tools self;
     max_iterations := max_steps self |}.

Definition set_tools (new_tools : list Adapter.t) (self : t) : t :=
  {| connector := connector self; llm := llm self;
     max_steps := max_steps self; tools := new_tools; agent := agent self |}.

Definition set_agent (new_agent : option AgentExecutor) (self : t) : t :=
  {| connector := connector self; llm := llm self;
     max_steps := max_steps self; tools := tools self; agent := new_agent |}.

(** Lines 92-95. *)
Definition initialize (self : t) : t :=
  let self := set_tools (_create_langchain_tools self) self in
  set_agent (Some (_create_agent self)) self.

(** Lines 209-241.  The state is the agent object and the trace. *)
Definition run (query : string) (max_steps : option Z)
    (chat_history : option (list value)) : M (t * trace) string :=
  fun '(self, tr) =>
    match agent self with
    | None => (inl (RuntimeError "MCP client is not initialized"), (self, tr))
    | Some executor =>
        let executor :=
          match max_steps with
          | Some n => set_max_iterations n executor
          | None => executor
          end in
        let self := set_agent (Some executor) self in
        let chat_history :=
          match chat_history with
          | None => []
          | Some h => h
          end in
        let '(output, tr') := ainvoke executor query chat_history tr in
        (output, (self, tr'))
    end.

(** The step limit the next run would use, if the agent is initialized. *)
Definition step_limit (self : t) : option Z :=
  option_map max_iterations (agent self).

(** Runs one after another on the same agent, whatever each returns. *)
Fixpoint run_all (calls : list (string * option Z * option (list value)))
    (st : t * trace) : t * trace :=
  match calls with
  | [] => st
  | (query, max_steps, chat_history) :: rest =>
      run_all rest (snd (run query max_steps chat_history st))
  end.

End Agent.

(* ===================================================================== *)
(** ** Inputs used in the examples below *)
(* ===================================================================== *)

(** A list-valued [type] below an existing [anyOf] array. *)
Definition nullable_inside_anyOf : value :=
  VDict [("anyOf",
          VList [VDict [("type", VList [VStr "string"; VStr "null"])]])].

(** A resource whose blob is the single byte 0xFF, which is not UTF-8. *)
Definition undecodable_resource : Resource :=
  {| res_class := "BlobResourceContents"; res_type := None;
     res_text := None; res_blob := Some (BlobBytes [xff]) |}.

(** A resource that has neither [text] nor [blob], but a [type]. *)
Definition bare_resource : Resource :=
  {| res_class := "Link"; res_type := Some "link";
     res_text := None; res_blob := None |}.

(** A resource whose blob is the UTF-8 encoding of "hé". *)
Definition utf8_resource : Resource :=
  {| res_class := "BlobResourceContents"; res_type := None;
     res_text := None; res_blob := Some (BlobBytes [x68; xc3; xa9]) |}.

(** A resource that has a [text] and a blob that is not UTF-8. *)
Definition readme_resource : Resource :=
  {| res_class := "TextResourceContents"; res_type := None;
     res_text := Some "readme"; res_blob := Some (BlobBytes [xff]) |}.

(** What the embedded-resource items of the examples print as; no result
    below shows it. *)
Definition resource_repr : string :=
  "EmbeddedResource(type='resource', annotations=None)".

(** Two text items, printing as pydantic prints them. *)
Definition text_ab : ContentItem :=
  text_item "ab" "TextContent(type='text', text='ab', annotations=None)".

Definition text_cd : ContentItem :=
  text_item "cd" "TextContent(type='text', text='cd', annotations=None)".


(** A connector whose every call fails with a timeout. *)
Definition failing_connector : BaseConnector :=
  {| conn_tools :=
       [Types.new_Tool "search" (Some (Some "Search the web")) None None];
     conn_answer := fun _ _ _ => inl (OtherError "TimeoutError" "timed out") |}.

Definition search_adapter : Adapter.t :=
  Adapter.make failing_connector
    (Types.new_Tool "search" (Some (Some "Search the web")) None None).

(** A model that answers at once, without calling a tool. *)
Definition echo_llm : BaseLanguageModel :=
  {| drive := fun _ _ _ input _ => (inr input, []) |}.

(* ===================================================================== *)
(** ** Further notions about schemas and tools *)
(* ===================================================================== *)

(** A list-valued [type] whose entries are not lists themselves. *)
Definition no_list_entry (v : value) : bool :=
  match v with
  | VList ts => forallb (fun t => negb (is_list t)) ts
  | _ => true
  end.

(** Nothing is left for [fix_schema] to miss: along mapping values, every
    list holds no mapping with a list-valued [type] at any depth, and a
    list-valued [type] holds no list. *)
Fixpoint lists_settled (v : value) : bool :=
  match v with
  | VDict entries =>
      match dict_get "type" entries with
      | Some t => no_list_entry t
      | None => true
      end
      && forallb (fun kv => lists_settled (snd kv)) entries
  | VList items => forallb deep_list_type_free items
  | _ => true
  end.

(** Line 132 hands [tool.inputSchema] itself to [fix_schema], which
    rewrites it in place: this is the mapping the tool holds afterwards. *)
Definition normalized_schema (schema : dict) : dict :=
  match fix_schema (VDict schema) with
  | VDict entries => entries
  | _ => schema
  end.

(** The tool object once its adapter has been built. *)
Definition after_adaptation (tool : Types.Tool) : Types.Tool :=
  {| Types.name := Types.name tool;
     Types.description := Types.description tool;
     Types.inputSchema := normalized_schema (Types.inputSchema tool);
     Types.outputSchema := Types.outputSchema tool |}.

(** An [ImageContent] with data [d] that prints as [repr]. *)
Definition image_item (d repr : string) : ContentItem :=
  {| item_class := "ImageContent"; item_type := "image";
     item_text := None; item_data := Some d;
     item_resource := None; item_repr := repr |}.

(** An image item. *)
Definition image_hi : ContentItem :=
  image_item "aGk="
    "ImageContent(type='image', data='aGk=', mimeType='image/png', annotations=None)".

(** An item of a kind the decoder does not know. *)
Definition audio_item : ContentItem :=
  {| item_class := "AudioContent"; item_type := "audio";
     item_text := None; item_data := Some "UklGRg==";
     item_resource := None; item_repr := "AudioContent(type='audio')" |}.

(** An object schema with a nullable property and a list of required
    names. *)
Definition nullable_property : value :=
  VDict [("type", VStr "object");
         ("properties",
          VDict [("q", VDict [("type", VList [VStr "string"; VStr "null"]);
                              ("title", VStr "Q")])]);
         ("required", VList [VStr "q"])].

(** A connector with one tool whose every call answers "pong". *)
Definition ping_connector : BaseConnector :=
  {| conn_tools := [Types.new_Tool "ping" None None None];
     conn_answer := fun _ _ _ =>
       inr {| content := [text_item "pong"
                        "TextContent(type='text', text='pong', annotations=None)"];
              isError := false |} |}.

(** A connector whose every call answers with no content at all. *)
Definition silent_connector : BaseConnector :=
  {| conn_tools := [Types.new_Tool "ping" None None None];
     conn_answer := fun _ _ _ => inr {| content := []; isError := false |} |}.

(* ===================================================================== *)
(** ** Facts about the dict operations *)
(* ===================================================================== *)

Lemma dict_get_map_values f k d :
  dict_get k (map_values f d) = option_map f (dict_get k d).
Proof.
  induction d as [|[k' v] r IH]; simpl; [reflexivity|].
  destruct (k =? k'); [reflexivity | exact IH].
Qed.

Lemma dict_get_del_same k d : dict_get k (dict_del k d) = None.
Proof.
  induction d as [|[k' v] r IH]; simpl; [reflexivity|].
  destruct (k =? k') eqn:E; [exact IH|].
  simpl. rewrite E. exact IH.
Qed.

Lemma dict_get_del_other k k' d :
  k <> k' -> dict_get k (dict_del k' d) = dict_get k d.
Proof.
  intros Hne. induction d as [|[k0 v] r IH]; simpl; [reflexivity|].
  destruct (k' =? k0) eqn:E'.
  - apply String.eqb_eq in E'. subst k0.
    destruct (k =? k') eqn:E; [apply String.eqb_eq in E; contradiction | exact IH].
  - simpl. destruct (k =? k0); [reflexivity | exact IH].
Qed.

Lemma dict_get_set_same k v d : dict_get k (dict_set k v d) = Some v.
Proof.
  induction d as [|[k' v'] r IH]; simpl.
  - rewrite String.eqb_refl. reflexivity.
  - destruct (k =? k') eqn:E; simpl; rewrite E; [reflexivity | exact IH].
Qed.

Lemma dict_get_set_other k k' v d :
  k <> k' -> dict_get k (dict_set k' v d) = dict_get k d.
Proof.
  intros Hne. apply String.eqb_neq in Hne.
  induction d as [|[k0 v0] r IH]; simpl.
  - rewrite Hne. reflexivity.
  - destruct (k' =? k0) eqn:E'; simpl.
    + apply String.eqb_eq in E'. subst k0. rewrite Hne. reflexivity.
    + destruct (k =? k0); [reflexivity | exact IH].
Qed.

Lemma in_dict_del k kv d : In kv (dict_del k d) -> In kv d.
Proof.
  induction d as [|[k' v'] r IH]; simpl; [tauto|].
  destruct (k =? k'); simpl; intuition.
Qed.

Lemma in_dict_set k v (kv : string * value) (d : dict) :
  In kv (dict_set k v d) -> In kv d \/ snd kv = v.
Proof.
  induction d as [|[k' v'] r IH]; simpl.
  - intros [<-|[]]. right. reflexivity.
  - destruct (k =? k'); simpl.
    + intros [<-|H]; [right; reflexivity | left; right; exact H].
    + intros [<-|H]; [left; left; reflexivity|].
      destruct (IH H) as [H'|H']; [left; right; exact H' | right; exact H'].
Qed.

(** An entry of the rewritten mapping is an entry of the original one, or
    the new [anyOf] list. *)
Lemma in_rewrite_type (kv : string * value) (d : dict) :
  In kv (rewrite_type d) -> In kv d \/ is_list (snd kv) = true.
Proof.
  unfold rewrite_type.
  destruct (dict_get "type" d) as [[| | | | |ts|]|]; auto.
  intros H. apply in_dict_del in H. apply in_dict_set in H.
  destruct H as [H|H]; [left; exact H | right; rewrite H; reflexivity].
Qed.

(** After the rewrite, [type] is never bound to a list. *)
Lemma has_list_type_rewrite d : has_list_type (rewrite_type d) = false.
Proof.
  unfold has_list_type, rewrite_type.
  destruct (dict_get "type" d) as [v|] eqn:E.
  - destruct v; try (rewrite E; reflexivity).
    rewrite dict_get_del_same. reflexivity.
  - rewrite E. reflexivity.
Qed.

Lemma rewrite_type_fixed d : has_list_type d = false -> rewrite_type d = d.
Proof.
  unfold has_list_type, rewrite_type.
  destruct (dict_get "type" d) as [[| | | | |ts|]|]; intros H;
    solve [reflexivity | discriminate].
Qed.

(* ===================================================================== *)
(** ** The recursion of [fix_schema] *)
(* ===================================================================== *)

Lemma depth_list v : is_list v = true -> depth v = 0.
Proof. destruct v; simpl; intros H; solve [reflexivity | discriminate]. Qed.

Lemma depth_entry (kv : string * value) (d : dict) :
  In kv d -> depth (snd kv) <= list_max (map (fun kv => depth (snd kv)) d).
Proof.
  intros H.
  assert (Hall := proj1 (list_max_le (map (fun kv => depth (snd kv)) d) _)
                        (Nat.le_refl _)).
  rewrite Forall_forall in Hall. apply Hall.
  apply in_map_iff. exists kv. split; [reflexivity | exact H].
Qed.

Lemma depth_rewrite_type (kv : string * value) (d : dict) :
  In kv (rewrite_type d) ->
  depth (snd kv) <= list_max (map (fun kv => depth (snd kv)) d).
Proof.
  intros H. destruct (in_rewrite_type _ _ H) as [Hin|Hl].
  - apply depth_entry. exact Hin.
  - rewrite (depth_list _ Hl). lia.
Qed.

(** Any bound that is at least the nesting depth gives the same result. *)
Lemma fix_schema_fuel_enough n :
  forall m v, depth v <= n -> depth v <= m ->
  fix_schema_fuel n v = fix_schema_fuel m v.
Proof.
  induction n as [|n IH]; intros m v Hn Hm.
  - destruct v; simpl in Hn; try lia; destruct m; reflexivity.
  - destruct m as [|m].
    + destruct v; simpl in Hm; try lia; reflexivity.
    + destruct v; try reflexivity.
      simpl in Hn, Hm. simpl. f_equal. unfold map_values.
      apply map_ext_in. intros kv Hin. f_equal.
      pose proof (depth_rewrite_type _ _ Hin).
      apply IH; lia.
Qed.

(** [fix_schema] satisfies the equation the source is written as. *)
Lemma fix_schema_dict d :
  fix_schema (VDict d) = VDict (map_values fix_schema (rewrite_type d)).
Proof.
  unfold fix_schema at 1. simpl. f_equal. unfold map_values.
  apply map_ext_in. intros kv Hin. f_equal.
  pose proof (depth_rewrite_type _ _ Hin).
  apply fix_schema_fuel_enough; lia.
Qed.

Lemma fix_schema_not_dict v : is_dict v = false -> fix_schema v = v.
Proof. destruct v; simpl; intros H; solve [reflexivity | discriminate]. Qed.

Lemma fix_schema_is_list v : is_list (fix_schema v) = is_list v.
Proof.
  destruct v; reflexivity.
Qed.

Lemma has_list_type_map_fix d :
  has_list_type (map_values fix_schema d) = has_list_type d.
Proof.
  unfold has_list_type. rewrite dict_get_map_values.
  destruct (dict_get "type" d) as [v|]; simpl; [|reflexivity].
  destruct v; reflexivity.
Qed.

(** The result has no list-valued [type] in any mapping reached through
    mapping values. *)
Lemma fix_schema_list_type_free s : list_type_free (fix_schema s) = true.
Proof.
  induction s as [| | | | | items _ | entries IH] using value_ind;
    try reflexivity.
  rewrite fix_schema_dict. simpl.
  rewrite has_list_type_map_fix, has_list_type_rewrite. simpl.
  apply forallb_forall. intros kv Hin.
  unfold map_values in Hin. apply in_map_iff in Hin.
  destruct Hin as [kv0 [<- Hin0]]. simpl.
  destruct (in_rewrite_type _ _ Hin0) as [Hin|Hl].
  - rewrite Forall_forall in IH. apply IH. exact Hin.
  - destruct (snd kv0); try discriminate. reflexivity.
Qed.

(** A schema without such a field is left as it is. *)
Lemma fix_schema_fixed s : list_type_free s = true -> fix_schema s = s.
Proof.
  induction s as [| | | | | items _ | entries IH] using value_ind;
    try reflexivity.
  simpl. intros H. apply andb_prop in H. destruct H as [Ht Hall].
  apply negb_true_iff in Ht.
  rewrite fix_schema_dict, (rewrite_type_fixed _ Ht). f_equal.
  unfold map_values. rewrite <- (map_id entries) at 2.
  apply map_ext_in. intros [k v] Hin. simpl.
  rewrite Forall_forall in IH. rewrite forallb_forall in Hall.
  f_equal. exact (IH _ Hin (Hall _ Hin)).
Qed.

(* --------------------------------------------------------------------- *)
(** *** The embedding stays inside Python's values *)
(* --------------------------------------------------------------------- *)

Lemma keys_map_values f d : map fst (map_values f d) = map fst d.
Proof.
  unfold map_values. rewrite map_map. apply map_ext. reflexivity.
Qed.

Lemma in_keys_dict_del k k' d :
  In k' (map fst (dict_del k d)) -> In k' (map fst d).
Proof.
  induction d as [|[k0 v0] r IH]; simpl; [tauto|].
  destruct (k =? k0); simpl; intuition.
Qed.

Lemma in_keys_dict_set k v k' d :
  In k' (map fst (dict_set k v d)) -> k' = k \/ In k' (map fst d).
Proof.
  induction d as [|[k0 v0] r IH]; simpl.
  - intros [<-|[]]. left. reflexivity.
  - destruct (k =? k0); simpl; intuition.
Qed.

Lemma NoDup_dict_del k d :
  NoDup (map fst d) -> NoDup (map fst (dict_del k d)).
Proof.
  induction d as [|[k0 v0] r IH]; simpl; intros H; [exact H|].
  inversion H as [|? ? Hnotin Hrest]; subst.
  destruct (k =? k0); simpl; [exact (IH Hrest)|].
  constructor; [|exact (IH Hrest)].
  intros Hin. apply Hnotin. exact (in_keys_dict_del _ _ _ Hin).
Qed.

Lemma NoDup_dict_set k v d :
  NoDup (map fst d) -> NoDup (map fst (dict_set k v d)).
Proof.
  induction d as [|[k0 v0] r IH]; simpl; intros H.
  - constructor; [intros [] | constructor].
  - inversion H as [|? ? Hnotin Hrest]; subst.
    destruct (String.eqb_spec k k0) as [->|Hne]; simpl.
    + constructor; assumption.
    + constructor; [|exact (IH Hrest)].
      intros Hin. apply in_keys_dict_set in Hin.
      destruct Hin as [Heq|Hin]; [congruence | contradiction].
Qed.

Lemma dict_get_in k d v : dict_get k d = Some v -> exists k', In (k', v) d.
Proof.
  induction d as [|[k0 v0] r IH]; simpl; [discriminate|].
  destruct (k =? k0).
  - intros H. injection H as ->. exists k0. left. reflexivity.
  - intros H. destruct (IH H) as [k' Hin]. exists k'. right. exact Hin.
Qed.

Lemma wf_in_rewrite_type (kv : string * value) (d : dict) :
  Forall (fun kv => wf_value (snd kv)) d ->
  In kv (rewrite_type d) -> wf_value (snd kv).
Proof.
  intros Hall. rewrite Forall_forall in Hall. unfold rewrite_type.
  destruct (dict_get "type" d) as [[| | | | |ts|]|] eqn:E; auto.
  intros H. apply in_dict_del in H. apply in_dict_set in H.
  destruct H as [H|H]; [auto|]. rewrite H.
  destruct (dict_get_in _ _ _ E) as [k0 Hk0].
  pose proof (Hall _ Hk0) as Hts. simpl in Hts.
  inversion Hts as [| | | | |? Hitems|]; subst.
  rewrite Forall_forall in Hitems.
  constructor. apply Forall_forall. intros x Hx.
  apply in_map_iff in Hx. destruct Hx as [t [<- Ht]].
  constructor; simpl.
  - constructor; [intros [] | constructor].
  - constructor; [|constructor]. simpl. exact (Hitems _ Ht).
Qed.

Lemma NoDup_rewrite_type d :
  NoDup (map fst d) -> NoDup (map fst (rewrite_type d)).
Proof.
  intros H. unfold rewrite_type.
  destruct (dict_get "type" d) as [[| | | | |ts|]|]; auto.
  apply NoDup_dict_del, NoDup_dict_set. exact H.
Qed.

(** [fix_schema] turns a Python value into a Python value: no key is ever
    bound twice. *)
Lemma fix_schema_wf s : wf_value s -> wf_value (fix_schema s).
Proof.
  induction s as [| | | | | items _ | entries IH] using value_ind;
    intros Hwf; try exact Hwf.
  inversion Hwf as [| | | | | |? Hkeys Hvals]; subst.
  rewrite fix_schema_dict. constructor.
  - rewrite keys_map_values. apply NoDup_rewrite_type. exact Hkeys.
  - apply Forall_forall. intros kv Hin.
    unfold map_values in Hin. apply in_map_iff in Hin.
    destruct Hin as [kv0 [<- Hin0]]. simpl.
    pose proof (wf_in_rewrite_type _ _ Hvals Hin0) as Hwf0.
    destruct (in_rewrite_type _ _ Hin0) as [Hin|Hl].
    + rewrite Forall_forall in IH. apply IH; assumption.
    + destruct (snd kv0); try discriminate. exact Hwf0.
Qed.

(* ===================================================================== *)
(** ** The schema normalizer *)
(* ===================================================================== *)

(** C1, as stated, fails: [fix_schema] hands a list back untouched, so the
    mapping inside the [anyOf] array of [nullable_inside_anyOf] keeps its
    list-valued [type]. *)
Lemma fix_schema_skips_lists :
  fix_schema nullable_inside_anyOf = nullable_inside_anyOf
  /\ deep_list_type_free (fix_schema nullable_inside_anyOf) = false.
Proof. split; reflexivity. Qed.

(** C1, amended: in the result no mapping reached through mapping values
    alone, at any depth, has a list-valued [type]; a mapping that had one
    holds under [anyOf] the list of [{"type": t}], one per entry in order,
    has no [type], and every other key holds the normalized old value; a
    mapping that had none keeps its keys, each with the normalized old
    value; anything that is not a mapping, a list included, is returned as
    it is. *)
Theorem fix_schema_normalizes_along_mappings (s : value) :
  list_type_free (fix_schema s) = true
  /\ match s with
     | VDict d =>
         exists d', fix_schema s = VDict d'
           /\ forall k,
                dict_get k d' =
                match dict_get "type" d with
                | Some (VList ts) =>
                    if k =? "type" then None
                    else if k =? "anyOf" then Some (VList (map single_type ts))
                    else option_map fix_schema (dict_get k d)
                | _ => option_map fix_schema (dict_get k d)
                end
     | _ => fix_schema s = s
     end.
Proof.
  split; [apply fix_schema_list_type_free|].
  destruct s as [| | | | | |d]; try reflexivity.
  exists (map_values fix_schema (rewrite_type d)).
  split; [apply fix_schema_dict|].
  intros k. rewrite dict_get_map_values. unfold rewrite_type.
  destruct (dict_get "type" d) as [[| | | | |ts|]|]; try reflexivity.
  destruct (String.eqb_spec k "type") as [->|Hty].
  - rewrite dict_get_del_same. reflexivity.
  - rewrite (dict_get_del_other _ _ _ Hty).
    destruct (String.eqb_spec k "anyOf") as [->|Hany].
    + rewrite dict_get_set_same. reflexivity.
    + rewrite (dict_get_set_other _ _ _ _ Hany). reflexivity.
Qed.

(** C4: normalizing a normalized schema changes nothing. *)
Theorem fix_schema_idempotent (s : value) :
  fix_schema (fix_schema s) = fix_schema s.
Proof. apply fix_schema_fixed. apply fix_schema_list_type_free. Qed.

(* ===================================================================== *)
(** ** The tool-result decoder *)
(* ===================================================================== *)

Lemma append_assoc (a b c : string) : (a ++ b) ++ c = a ++ (b ++ c).
Proof. induction a as [|ch a IH]; simpl; [reflexivity | now rewrite IH]. Qed.

Lemma append_nil_r (a : string) : a ++ "" = a.
Proof. induction a as [|ch a IH]; simpl; [reflexivity | now rewrite IH]. Qed.

(** The decoder finds an error exactly in the byte strings that are not
    well-formed UTF-8. *)
Lemma utf8_error_valid n :
  forall bs pos, length bs <= n ->
  utf8_error pos bs = None <-> utf8_valid bs = true.
Proof.
  induction n as [|n IH]; intros bs pos Hlen.
  - destruct bs; simpl in Hlen; [simpl; tauto | lia].
  - destruct bs as [|b0 r0]; [simpl; tauto|].
    simpl in Hlen. cbn [utf8_error utf8_valid].
    destruct (byte_in 0 127 b0).
    { apply IH. lia. }
    destruct r0 as [|b1 r1].
    { unfold unexpected_end, invalid_start.
      destruct (byte_in 194 223 b0), (byte_in 224 239 b0),
        (byte_in 240 244 b0); split; discriminate. }
    simpl in Hlen.
    destruct (byte_in 194 223 b0).
    { destruct (continuation b1); simpl.
      - apply IH. lia.
      - split; discriminate. }
    destruct r1 as [|b2 r2].
    { unfold unexpected_end, invalid_continuation, invalid_start.
      destruct (byte_in 224 239 b0), (byte_in 240 244 b0),
        (second_of_three b0 b1), (second_of_four b0 b1);
        simpl; split; discriminate. }
    simpl in Hlen.
    destruct (byte_in 224 239 b0).
    { destruct (second_of_three b0 b1); simpl; [|split; discriminate].
      destruct (continuation b2); simpl; [|split; discriminate].
      apply IH. lia. }
    destruct r2 as [|b3 r3].
    { unfold unexpected_end, invalid_continuation, invalid_start.
      destruct (byte_in 240 244 b0), (second_of_four b0 b1),
        (continuation b2); simpl; split; discriminate. }
    simpl in Hlen.
    destruct (byte_in 240 244 b0); simpl; [|split; discriminate].
    destruct (second_of_four b0 b1); simpl; [|split; discriminate].
    destruct (continuation b2); simpl; [|split; discriminate].
    destruct (continuation b3); simpl; [|split; discriminate].
    apply IH. lia.
Qed.

(** [bytes.decode()] returns exactly on well-formed UTF-8. *)
Lemma bytes_decode_valid b :
  utf8_valid b = true -> bytes_decode b = inr (string_of_list_byte b).
Proof.
  intros Hv. unfold bytes_decode.
  rewrite (proj2 (utf8_error_valid (length b) b 0 (Nat.le_refl _)) Hv).
  reflexivity.
Qed.

(** The only branch that raises "Unexpected resource type" is the one for a
    resource with neither [text] nor [blob]. *)
Lemma decode_item_unexpected_resource item kind :
  decode_item item = inl (ToolException ("Unexpected resource type: " ++ kind)) ->
  exists r, item_type item = "resource" /\ item_resource item = Some r
            /\ res_text r = None /\ res_blob r = None
            /\ res_type r = Some kind.
Proof.
  unfold decode_item.
  destruct (item_type item =? "text").
  { destruct (item_text item); simpl; discriminate. }
  destruct (item_type item =? "image").
  { destruct (item_data item); simpl; discriminate. }
  destruct (String.eqb_spec (item_type item) "resource") as [Hty|_].
  - destruct (item_resource item) as [r|]; simpl; [|discriminate].
    destruct (res_text r) eqn:Et; [discriminate|].
    destruct (res_blob r) as [[b|str_of]|] eqn:Eb.
    + unfold bytes_decode. destruct (utf8_error 0 b); discriminate.
    + discriminate.
    + destruct (res_type r) as [kind'|] eqn:Ek; simpl; [|discriminate].
      intros H. injection H as H. subst kind'. exists r. auto.
  - simpl. discriminate.
Qed.

Lemma decode_items_unexpected_resource items :
  forall decoded_result kind,
  decode_items decoded_result items
  = inl (ToolException ("Unexpected resource type: " ++ kind)) ->
  exists item r, In item items /\ item_type item = "resource"
                 /\ item_resource item = Some r
                 /\ res_text r = None /\ res_blob r = None
                 /\ res_type r = Some kind.
Proof.
  induction items as [|item rest IH]; simpl; intros acc kind H; [discriminate|].
  destruct (decode_item item) as [e|piece] eqn:E.
  - rewrite H in E. apply decode_item_unexpected_resource in E.
    destruct E as [r Hr]. exists item, r. tauto.
  - destruct (IH _ _ H) as [item' [r [Hin Hr]]].
    exists item', r. tauto.
Qed.

(** C2, as stated, fails: a [bytes] blob that is not valid UTF-8 makes the
    decoder raise [UnicodeDecodeError]; no string representation is
    appended and nothing is returned. *)
Lemma parse_undecodable_blob_raises :
  let tool_result :=
    {| content := [resource_item undecodable_resource resource_repr];
       isError := false |} in
  utf8_valid [xff] = false
  /\ _parse_mcp_tool_result tool_result
     = inl (UnicodeDecodeError "utf-8" [xff] 0 1 "invalid start byte")
  /\ ~ exists text, _parse_mcp_tool_result tool_result = inr text.
Proof.
  simpl. repeat split. intros [text H]. discriminate H.
Qed.

(** C2, amended: for an embedded-resource item whose resource has no
    [text], a [bytes] blob holding valid UTF-8 is appended decoded and a
    blob that is not a [bytes] object is appended as its [str]; the decoder
    raises [ToolException] naming a resource's type only when a resource
    has neither [text] nor [blob], and it does so for such a resource that
    has a [type] to name. *)
Theorem decode_resource_without_text
    (item : ContentItem) (r : Resource)
    (decoded_result : string) (rest : list ContentItem) :
  item_type item = "resource" ->
  item_resource item = Some r ->
  res_text r = None ->
  match res_blob r with
  | Some (BlobBytes b) =>
      utf8_valid b = true ->
      decode_items decoded_result (item :: rest)
      = decode_items (decoded_result ++ string_of_list_byte b) rest
  | Some (BlobOther str_of) =>
      decode_items decoded_result (item :: rest)
      = decode_items (decoded_result ++ str_of) rest
  | None =>
      forall kind,
      res_type r = Some kind ->
      decode_items decoded_result (item :: rest)
      = inl (ToolException ("Unexpected resource type: " ++ kind))
  end
  /\ forall tool_result kind,
       _parse_mcp_tool_result tool_result
       = inl (ToolException ("Unexpected resource type: " ++ kind)) ->
       exists item' r',
         In item' (content tool_result) /\ item_type item' = "resource"
         /\ item_resource item' = Some r'
         /\ res_text r' = None /\ res_blob r' = None
         /\ res_type r' = Some kind.
Proof.
  intros Hty Hres Htext. split.
  - simpl. unfold decode_item. rewrite Hty, Hres. simpl. rewrite Htext.
    destruct (res_blob r) as [[b|str_of]|]; try reflexivity.
    + intros Hv. rewrite (bytes_decode_valid _ Hv). reflexivity.
    + intros kind Hk. rewrite Hk. reflexivity.
  - intros tool_result kind. unfold _parse_mcp_tool_result.
    destruct (isError tool_result); [discriminate|].
    destruct (content tool_result) as [|item0 rest0] eqn:E; [discriminate|].
    apply decode_items_unexpected_resource.
Qed.

(** A blob holding the UTF-8 encoding of "hé" is appended as that text;
    [bare_resource] raises naming its type, and that failure is traced
    back to it. *)
Lemma decode_resource_without_text_witness :
  decode_items "got: " [resource_item utf8_resource resource_repr]
  = inr ("got: " ++ string_of_list_byte [x68; xc3; xa9])
  /\ decode_items "" [resource_item bare_resource resource_repr]
     = inl (ToolException "Unexpected resource type: link")
  /\ exists item' r',
       In item' [resource_item bare_resource resource_repr]
       /\ item_type item' = "resource"
       /\ item_resource item' = Some r'
       /\ res_text r' = None /\ res_blob r' = None
       /\ res_type r' = Some "link".
Proof.
  split; [|split].
  - exact (proj1 (decode_resource_without_text
                    (resource_item utf8_resource resource_repr)
                    _ "got: " [] eq_refl eq_refl eq_refl) eq_refl).
  - exact (proj1 (decode_resource_without_text
                    (resource_item bare_resource resource_repr)
                    _ "" [] eq_refl eq_refl eq_refl) "link" eq_refl).
  - exact (proj2 (decode_resource_without_text
                    (resource_item bare_resource resource_repr) _ "" []
                    eq_refl eq_refl eq_refl)
                 {| content := [resource_item bare_resource resource_repr];
                    isError := false |} "link" eq_refl).
Defined.

(** C5: with the error flag set the decoder raises [ToolException] whose
    message carries the content as it is, whatever the content; with the
    flag clear and no content it raises [ToolException] as well. *)
Theorem parse_raises_on_error_flag_or_no_content (items : list ContentItem) :
  _parse_mcp_tool_result {| content := items; isError := true |}
  = inl (ToolException ("Tool execution failed: " ++ content_str items))
  /\ _parse_mcp_tool_result {| content := []; isError := false |}
     = inl (ToolException "Tool execution returned no content").
Proof. split; reflexivity. Qed.

Lemma decode_text_items items texts :
  Forall2 (fun item s => item_type item = "text" /\ item_text item = Some s)
          items texts ->
  forall decoded_result,
  decode_items decoded_result items
  = inr (decoded_result ++ String.concat "" texts).
Proof.
  induction 1 as [|item s items texts [Hty Htext] Hrest IH];
    intros acc; simpl.
  - rewrite append_nil_r. reflexivity.
  - unfold decode_item. rewrite Hty, Htext. simpl. rewrite IH.
    rewrite append_assoc. destruct texts as [|s' texts'].
    + inversion Hrest. simpl. rewrite append_nil_r. reflexivity.
    + reflexivity.
Qed.

(** C6: with the error flag clear and a non-empty content of text items,
    the decoder returns their texts joined in order with nothing between
    them. *)
Theorem parse_text_items_concatenates
    (items : list ContentItem) (texts : list string) :
  Forall2 (fun item s => item_type item = "text" /\ item_text item = Some s)
          items texts ->
  items <> [] ->
  _parse_mcp_tool_result {| content := items; isError := false |}
  = inr (String.concat "" texts).
Proof.
  intros Hall Hne. unfold _parse_mcp_tool_result. simpl.
  destruct items as [|item rest]; [contradiction|].
  rewrite (decode_text_items _ _ Hall). reflexivity.
Qed.

Lemma parse_text_items_concatenates_witness :
  _parse_mcp_tool_result
    {| content := [text_ab; text_cd]; isError := false |}
  = inr "abcd".
Proof.
  apply (parse_text_items_concatenates [text_ab; text_cd] ["ab"; "cd"]).
  - repeat constructor.
  - discriminate.
Defined.

(* ===================================================================== *)
(** ** The adapter *)
(* ===================================================================== *)

(** C7: when the connector raises [e], the call is made and, with
    [handle_tool_error] set, [_arun] returns "Error executing MCP tool: "
    followed by [str(e)]; with it clear, [e] is raised to the caller.  An
    adapter as [_create_langchain_tools] builds it has the flag set. *)
Theorem arun_connector_exception
    (self : Adapter.t) (kwargs : dict) (tr : trace) (e : exn) :
  conn_answer (Adapter.connector self) tr (Adapter.name self) kwargs = inl e ->
  Adapter._arun self kwargs tr
  = (if Adapter.handle_tool_error self
     then inr ("Error executing MCP tool: " ++ exn_str e)
     else inl e,
     (tr ++ [CallTool (Adapter.name self) kwargs])%list)
  /\ forall c tool, Adapter.handle_tool_error (Adapter.make c tool) = true.
Proof.
  intros Hraise. split; [|reflexivity].
  unfold Adapter._arun, try_except, bind, call_tool. rewrite Hraise.
  destruct (Adapter.handle_tool_error self); reflexivity.
Qed.

Lemma arun_connector_exception_witness :
  Adapter._arun search_adapter [("q", VStr "rocq")] []
  = (inr "Error executing MCP tool: timed out",
     [CallTool "search" [("q", VStr "rocq")]]).
Proof.
  exact (proj1 (arun_connector_exception search_adapter [("q", VStr "rocq")] []
                  (OtherError "TimeoutError" "timed out") eq_refl)).
Defined.

(** C8: [_run] raises [NotImplementedError] for every adapter and all
    arguments, and no call to the connector is made. *)
Theorem run_sync_not_supported (self : Adapter.t) (kwargs : dict) (tr : trace) :
  Adapter._run self kwargs tr
  = (inl (NotImplementedError "MCP tools only support async operations"), tr).
Proof. reflexivity. Qed.

(* ===================================================================== *)
(** ** The agent *)
(* ===================================================================== *)

(** C9: on an agent whose [agent] attribute is still [None], [run] raises
    [RuntimeError] "MCP client is not initialized"; the agent object is
    unchanged and neither the loop nor a tool has been invoked. *)
Theorem run_before_initialize
    (self : Agent.t) (query : string) (max_steps : option Z)
    (chat_history : option (list value)) (tr : trace) :
  Agent.agent self = None ->
  Agent.run query max_steps chat_history (self, tr)
  = (inl (RuntimeError "MCP client is not initialized"), (self, tr)).
Proof. intros Hnone. unfold Agent.run. rewrite Hnone. reflexivity. Qed.

Lemma run_before_initialize_witness :
  Agent.run "hello" (Some 3%Z) None
    (Agent.__init__ failing_connector echo_llm None, [])
  = (inl (RuntimeError "MCP client is not initialized"),
     (Agent.__init__ failing_connector echo_llm None, [])).
Proof.
  exact (run_before_initialize
           (Agent.__init__ failing_connector echo_llm None)
           "hello" (Some 3%Z) None [] eq_refl).
Defined.

(** What [run] leaves in the [agent] attribute. *)
Lemma run_agent_attribute self query max_steps chat_history tr :
  Agent.agent (fst (snd (Agent.run query max_steps chat_history (self, tr))))
  = match Agent.agent self with
    | None => None
    | Some executor =>
        Some match max_steps with
             | Some n => set_max_iterations n executor
             | None => executor
             end
    end.
Proof.
  unfold Agent.run.
  destruct (Agent.agent self) as [executor|] eqn:E; [|simpl; exact E].
  unfold ainvoke.
  destruct (drive _ _ _ _ _ _) as [output caused]. reflexivity.
Qed.

(** Runs without an override leave the step limit where it is. *)
Lemma run_all_keeps_step_limit calls :
  Forall (fun call => snd (fst call) = None) calls ->
  forall st, Agent.step_limit (fst (Agent.run_all calls st))
             = Agent.step_limit (fst st).
Proof.
  induction 1 as [|[[query max_steps] chat_history] rest Hnone _ IH];
    intros [self tr]; [reflexivity|].
  simpl in Hnone. subst max_steps.
  change (Agent.run_all ((query, None, chat_history) :: rest) (self, tr))
    with (Agent.run_all rest (snd (Agent.run query None chat_history (self, tr)))).
  rewrite IH.
  unfold Agent.step_limit. rewrite run_agent_attribute. simpl.
  destruct (Agent.agent self); reflexivity.
Qed.

(** C3: on an initialized agent, a run with override [n] is driven under
    step limit [n] and leaves [n] as the limit, which every later run
    without an override keeps; a run without an override is driven under
    the limit found and leaves it. *)
Theorem run_step_limit_override_persists
    (self : Agent.t) (executor : AgentExecutor) (query : string)
    (max_steps : option Z) (chat_history : option (list value)) (tr : trace) :
  Agent.agent self = Some executor ->
  let limit :=
    match max_steps with
    | Some n => n
    | None => max_iterations executor
    end in
  let st' := snd (Agent.run query max_steps chat_history (self, tr)) in
  Agent.step_limit (fst st') = Some limit
  /\ (exists caused,
        snd st' =
        (tr ++ Invoke limit query
                 match chat_history with Some h => h | None => [] end
               :: caused)%list)
  /\ forall later,
       Forall (fun call => snd (fst call) = None) later ->
       Agent.step_limit (fst (Agent.run_all later st')) = Some limit.
Proof.
  intros Hinit limit st'.
  assert (Hlimit : Agent.step_limit (fst st') = Some limit).
  { unfold Agent.step_limit, st'. rewrite run_agent_attribute, Hinit.
    unfold limit. destruct max_steps; reflexivity. }
  split; [exact Hlimit|]. split.
  - unfold st', Agent.run. rewrite Hinit. unfold ainvoke.
    destruct (drive _ _ _ _ _ _) as [output caused] eqn:E.
    exists caused. unfold limit. destruct max_steps; reflexivity.
  - intros later Hnone. rewrite (run_all_keeps_step_limit _ Hnone).
    exact Hlimit.
Qed.

(** An agent built with the default limit 5 and initialized; a run with
    override 10, then two runs without. *)
Lemma run_step_limit_override_persists_witness :
  let st0 :=
    (Agent.initialize (Agent.__init__ failing_connector echo_llm None),
     @nil event) in
  let st1 := snd (Agent.run "first" (Some 10%Z) None st0) in
  Agent.step_limit (fst st0) = Some 5%Z
  /\ Agent.step_limit (fst st1) = Some 10%Z
  /\ Agent.step_limit
       (fst (Agent.run_all [("second", None, None); ("third", None, None)] st1))
     = Some 10%Z.
Proof.
  pose proof (run_step_limit_override_persists
                (Agent.initialize
                   (Agent.__init__ failing_connector echo_llm None))
                _ "first" (Some 10%Z) None [] eq_refl) as H.
  simpl in H. destruct H as [H1 [_ H3]].
  split; [reflexivity|]. split; [exact H1|].
  apply (H3 [("second", None, None); ("third", None, None)]).
  repeat constructor.
Defined.

(* ===================================================================== *)
(** ** [ToolResult] *)
(* ===================================================================== *)

(** C10: a [ToolResult] built from content alone has [isError = False],
    and a [ToolResult] has [isError = True] exactly when the constructor
    was given [isError=True]. *)
Theorem ToolResult_isError_default
    (content : list (Types.TextContent + dict)) :
  Types.isError (Types.new_ToolResult content None) = false
  /\ forall flag,
       Types.isError (Types.new_ToolResult content flag) = true
       <-> flag = Some true.
Proof.
  split; [reflexivity|].
  intros [[|]|]; simpl; split; intros H;
    solve [reflexivity | discriminate H].
Qed.

(* ===================================================================== *)
(** ** More about the schema normalizer *)
(* ===================================================================== *)

(** The new entry of a rewritten mapping is the [anyOf] list made from the
    old [type]. *)
Lemma in_rewrite_type_new (kv : string * value) (d : dict) :
  In kv (rewrite_type d) ->
  In kv d
  \/ exists ts, dict_get "type" d = Some (VList ts)
                /\ snd kv = VList (map single_type ts).
Proof.
  unfold rewrite_type.
  destruct (dict_get "type" d) as [[| | | | |ts|]|] eqn:E; auto.
  intros H. apply in_dict_del in H. apply in_dict_set in H.
  destruct H as [H|H]; [left; exact H | right; exists ts; auto].
Qed.

Lemma keys_dict_del k d :
  map fst (dict_del k d) = filter (fun k' => negb (k =? k')) (map fst d).
Proof.
  induction d as [|[k0 v0] r IH]; simpl; [reflexivity|].
  destruct (k =? k0); simpl; rewrite IH; reflexivity.
Qed.

Lemma keys_dict_set k v d :
  map fst (dict_set k v d)
  = (map fst d ++ if existsb (String.eqb k) (map fst d) then [] else [k])%list.
Proof.
  induction d as [|[k0 v0] r IH]; simpl; [reflexivity|].
  destruct (k =? k0); simpl.
  - rewrite app_nil_r. reflexivity.
  - rewrite IH. reflexivity.
Qed.

(** X1: [fix_schema] never binds a key twice: from a value in which the
    keys of every mapping are pairwise distinct it makes such a value. *)
Theorem fix_schema_keeps_keys_distinct (s : value) :
  wf_value s -> wf_value (fix_schema s).
Proof. apply fix_schema_wf. Qed.

Lemma fix_schema_keeps_keys_distinct_witness :
  wf_value (fix_schema (VDict [("type", VList [VStr "string"; VStr "null"]);
                               ("anyOf", VInt 0)])).
Proof.
  apply fix_schema_keeps_keys_distinct.
  constructor; simpl.
  - repeat constructor; simpl; intuition discriminate.
  - repeat constructor.
Defined.

(** X2: the schemas [fix_schema] returns unchanged are exactly those with
    no list-valued [type] in a mapping reached through mapping values. *)
Theorem fix_schema_fixed_points (s : value) :
  fix_schema s = s <-> list_type_free s = true.
Proof.
  split.
  - intros H. rewrite <- H. apply fix_schema_list_type_free.
  - apply fix_schema_fixed.
Qed.

(** X3: when every list met along mapping values holds no mapping with a
    list-valued [type], and no list-valued [type] holds a list, the result
    has no list-valued [type] in any mapping at all, those inside lists
    included. *)
Theorem fix_schema_complete_on_settled_lists (s : value) :
  lists_settled s = true -> deep_list_type_free (fix_schema s) = true.
Proof.
  induction s as [| | | | | items _ | entries IH] using value_ind;
    try (intros; reflexivity).
  - intros H. exact H.
  - intros H. simpl in H. apply andb_prop in H. destruct H as [Hty Hall].
    rewrite forallb_forall in Hall. rewrite Forall_forall in IH.
    rewrite fix_schema_dict. simpl.
    rewrite has_list_type_map_fix, has_list_type_rewrite. simpl.
    apply forallb_forall. intros kv Hin.
    unfold map_values in Hin. apply in_map_iff in Hin.
    destruct Hin as [kv0 [<- Hin0]]. simpl.
    destruct (in_rewrite_type_new _ _ Hin0) as [Hin|[ts [Et ->]]].
    + apply IH; auto.
    + rewrite Et in Hty. simpl in Hty. rewrite forallb_forall in Hty.
      destruct (dict_get_in _ _ _ Et) as [k0 Hk0].
      pose proof (Hall _ Hk0) as Hdeep. simpl in Hdeep.
      rewrite forallb_forall in Hdeep.
      change (fix_schema (VList (map single_type ts)))
        with (VList (map single_type ts)).
      simpl. apply forallb_forall. intros x Hx.
      apply in_map_iff in Hx. destruct Hx as [t [<- Ht]].
      specialize (Hty _ Ht). specialize (Hdeep _ Ht).
      simpl. unfold has_list_type. simpl.
      rewrite Hdeep. destruct t; simpl in *; try reflexivity; discriminate.
Qed.

Lemma fix_schema_complete_on_settled_lists_witness :
  deep_list_type_free (fix_schema nullable_property) = true.
Proof.
  apply fix_schema_complete_on_settled_lists. reflexivity.
Defined.

(** X4: the keys of a mapping keep their order.  Without a list-valued
    [type] the keys are the old ones; with one, [type] is gone, the other
    keys stay where they were, and [anyOf] keeps its place if it was there
    and comes last if it was not. *)
Theorem fix_schema_key_order (d : dict) :
  exists d',
    fix_schema (VDict d) = VDict d'
    /\ map fst d' =
       match dict_get "type" d with
       | Some (VList _) =>
           (filter (fun k => negb ("type" =? k)) (map fst d)
            ++ if existsb (String.eqb "anyOf") (map fst d)
               then [] else ["anyOf"])%list
       | _ => map fst d
       end.
Proof.
  exists (map_values fix_schema (rewrite_type d)).
  split; [apply fix_schema_dict|].
  rewrite keys_map_values. unfold rewrite_type.
  destruct (dict_get "type" d) as [[| | | | |ts|]|]; try reflexivity.
  rewrite keys_dict_del, keys_dict_set, filter_app.
  destruct (existsb (String.eqb "anyOf") (map fst d)); reflexivity.
Qed.

(** X5: building the adapter a second time, from the tool whose schema
    the first build rewrote in place, gives the same adapter. *)
Theorem adapter_of_adapted_tool (c : BaseConnector) (tool : Types.Tool) :
  Adapter.make c (after_adaptation tool) = Adapter.make c tool.
Proof.
  unfold Adapter.make, after_adaptation, normalized_schema. simpl.
  f_equal. rewrite (fix_schema_dict (Types.inputSchema tool)).
  rewrite <- (fix_schema_dict (Types.inputSchema tool)).
  apply fix_schema_fixed. apply fix_schema_list_type_free.
Qed.

(* ===================================================================== *)
(** ** More about the tool-result decoder *)
(* ===================================================================== *)

Lemma concat_empty_cons (x : string) (xs : list string) :
  String.concat "" (x :: xs) = x ++ String.concat "" xs.
Proof.
  destruct xs as [|y ys]; simpl; [rewrite append_nil_r|]; reflexivity.
Qed.

Lemma concat_empty_app (xs ys : list string) :
  String.concat "" (xs ++ ys) = String.concat "" xs ++ String.concat "" ys.
Proof.
  induction xs as [|x xs IH]; [reflexivity|].
  change ((x :: xs) ++ ys)%list with (x :: (xs ++ ys))%list.
  rewrite !concat_empty_cons, IH, append_assoc. reflexivity.
Qed.

(** The loop returns exactly when every item decodes, and then it returns
    the pieces in order after what was there. *)
Lemma decode_items_returns items :
  forall decoded_result s,
  decode_items decoded_result items = inr s
  <-> exists pieces,
        Forall2 (fun item piece => decode_item item = inr piece) items pieces
        /\ s = decoded_result ++ String.concat "" pieces.
Proof.
  induction items as [|item rest IH]; intros acc s; simpl.
  - split.
    + intros H. injection H as <-. exists []. split; [constructor|].
      simpl. rewrite append_nil_r. reflexivity.
    + intros [pieces [Hall ->]]. inversion Hall; subst. simpl.
      rewrite append_nil_r. reflexivity.
  - destruct (decode_item item) as [e|piece] eqn:E.
    + split; [discriminate|].
      intros [pieces [Hall _]]. inversion Hall; subst. congruence.
    + rewrite IH. split.
      * intros [pieces [Hall ->]]. exists (piece :: pieces).
        split; [constructor; assumption|].
        rewrite concat_empty_cons, append_assoc. reflexivity.
      * intros [pieces [Hall ->]].
        inversion Hall as [|? piece' ? pieces' Hp Hrest]; subst.
        assert (piece' = piece) as -> by congruence.
        exists pieces'. split; [exact Hrest|].
        rewrite concat_empty_cons, append_assoc. reflexivity.
Qed.

(** The loop stops at the first item that does not decode. *)
Lemma decode_items_first_failure good :
  forall pieces bad rest e decoded_result,
  Forall2 (fun item piece => decode_item item = inr piece) good pieces ->
  decode_item bad = inl e ->
  decode_items decoded_result (good ++ bad :: rest) = inl e.
Proof.
  induction good as [|item good IH]; intros pieces bad rest e acc Hall Hbad.
  - simpl. rewrite Hbad. reflexivity.
  - inversion Hall as [|? piece ? pieces' Hp Hrest]; subst.
    simpl. rewrite Hp. exact (IH _ _ _ _ _ Hrest Hbad).
Qed.

Lemma parse_returns (tool_result : CallToolResult) (s : string) :
  _parse_mcp_tool_result tool_result = inr s
  <-> isError tool_result = false
      /\ content tool_result <> []
      /\ exists pieces,
           Forall2 (fun item piece => decode_item item = inr piece)
                   (content tool_result) pieces
           /\ s = String.concat "" pieces.
Proof.
  unfold _parse_mcp_tool_result.
  destruct (isError tool_result).
  { split; [discriminate | intros [H _]; discriminate]. }
  destruct (content tool_result) as [|item rest] eqn:E.
  { split; [discriminate | intros [_ [H _]]; contradiction]. }
  rewrite decode_items_returns. simpl. split.
  - intros H. repeat split; [discriminate | exact H].
  - intros [_ [_ H]]. exact H.
Qed.

(** X6: the decoder returns a string exactly when the error flag is
    clear, there is at least one item and every item decodes; the string
    is then the pieces joined in order, with images, resource texts and
    blobs treated like text. *)
Theorem parse_returns_iff (tool_result : CallToolResult) (s : string) :
  _parse_mcp_tool_result tool_result = inr s
  <-> isError tool_result = false
      /\ content tool_result <> []
      /\ exists pieces,
           Forall2 (fun item piece => decode_item item = inr piece)
                   (content tool_result) pieces
           /\ s = String.concat "" pieces.
Proof. apply parse_returns. Qed.

(** X7: decoding stops at the first item that raises: the exception of
    that item is the decoder's, whatever was decoded before it and
    whatever follows it. *)
Theorem parse_raises_at_first_bad_item
    (good : list ContentItem) (pieces : list string)
    (bad : ContentItem) (rest : list ContentItem) (e : exn) :
  Forall2 (fun item piece => decode_item item = inr piece) good pieces ->
  decode_item bad = inl e ->
  _parse_mcp_tool_result {| content := good ++ bad :: rest; isError := false |}
  = inl e.
Proof.
  intros Hall Hbad. unfold _parse_mcp_tool_result. simpl.
  destruct (good ++ bad :: rest)%list as [|x xs] eqn:E.
  - destruct good; discriminate E.
  - rewrite <- E. exact (decode_items_first_failure _ _ _ _ _ _ Hall Hbad).
Qed.

Lemma parse_raises_at_first_bad_item_witness :
  _parse_mcp_tool_result
    {| content := [text_ab;
                   resource_item undecodable_resource resource_repr;
                   resource_item bare_resource resource_repr];
       isError := false |}
  = inl (UnicodeDecodeError "utf-8" [xff] 0 1 "invalid start byte").
Proof.
  apply (parse_raises_at_first_bad_item
           [text_ab] ["ab"]
           (resource_item undecodable_resource resource_repr)
           [resource_item bare_resource resource_repr]
           (UnicodeDecodeError "utf-8" [xff] 0 1 "invalid start byte")).
  - repeat constructor.
  - reflexivity.
Defined.

(** X8: an item tagged with anything but "text", "image" or "resource",
    coming after items that decode, makes the decoder raise
    [ToolException] "Unexpected content type: " followed by the tag. *)
Theorem parse_unknown_content_type
    (good : list ContentItem) (pieces : list string)
    (bad : ContentItem) (rest : list ContentItem) :
  Forall2 (fun item piece => decode_item item = inr piece) good pieces ->
  item_type bad <> "text" ->
  item_type bad <> "image" ->
  item_type bad <> "resource" ->
  _parse_mcp_tool_result {| content := good ++ bad :: rest; isError := false |}
  = inl (ToolException ("Unexpected content type: " ++ item_type bad)).
Proof.
  intros Hall Ht Hi Hr. unfold _parse_mcp_tool_result. simpl.
  destruct (good ++ bad :: rest)%list as [|x xs] eqn:E.
  - destruct good; discriminate E.
  - rewrite <- E. apply (decode_items_first_failure _ _ _ _ _ _ Hall).
    unfold decode_item.
    apply String.eqb_neq in Ht, Hi, Hr. rewrite Ht, Hi, Hr. reflexivity.
Qed.

Lemma parse_unknown_content_type_witness :
  _parse_mcp_tool_result
    {| content := [image_hi; audio_item; text_cd]; isError := false |}
  = inl (ToolException "Unexpected content type: audio").
Proof.
  apply (parse_unknown_content_type [image_hi] ["aGk="] audio_item [text_cd]).
  - repeat constructor.
  - discriminate.
  - discriminate.
  - discriminate.
Defined.

(** X9: a resource that has a [text] contributes that text; its [blob]
    is not looked at, not even one that could not be decoded. *)
Theorem decode_resource_text_first
    (item : ContentItem) (r : Resource) (text : string)
    (decoded_result : string) (rest : list ContentItem) :
  item_type item = "resource" ->
  item_resource item = Some r ->
  res_text r = Some text ->
  decode_items decoded_result (item :: rest)
  = decode_items (decoded_result ++ text) rest.
Proof.
  intros Hty Hres Htext. simpl. unfold decode_item.
  rewrite Hty, Hres. simpl. rewrite Htext. reflexivity.
Qed.

Lemma decode_resource_text_first_witness :
  decode_items "" [resource_item readme_resource resource_repr]
  = inr "readme".
Proof.
  exact (decode_resource_text_first
           (resource_item readme_resource resource_repr)
           _ "readme" "" [] eq_refl eq_refl eq_refl).
Defined.

(** X10: decoding distributes over joining two contents: when both decode,
    the joined content decodes to the joined strings. *)
Theorem parse_app (xs ys : list ContentItem) (a b : string) :
  _parse_mcp_tool_result {| content := xs; isError := false |} = inr a ->
  _parse_mcp_tool_result {| content := ys; isError := false |} = inr b ->
  _parse_mcp_tool_result {| content := xs ++ ys; isError := false |}
  = inr (a ++ b).
Proof.
  intros Ha Hb.
  apply parse_returns in Ha. apply parse_returns in Hb.
  destruct Ha as [_ [Hxs [pa [Hpa ->]]]].
  destruct Hb as [_ [_ [pb [Hpb ->]]]].
  apply parse_returns. simpl in *. repeat split.
  - destruct xs; [contradiction | discriminate].
  - exists (pa ++ pb)%list. split; [apply Forall2_app; assumption|].
    symmetry. apply concat_empty_app.
Qed.

Lemma parse_app_witness :
  _parse_mcp_tool_result
    {| content := [text_ab; image_hi]; isError := false |}
  = inr "abaGk=".
Proof.
  exact (parse_app [text_ab] [image_hi] "ab" "aGk=" eq_refl eq_refl).
Defined.

(** The two [raise] statements of the loop, read back from the message. *)
Lemma decode_item_tool_exception item msg :
  decode_item item = inl (ToolException msg) ->
  (exists r kind,
     item_type item = "resource" /\ item_resource item = Some r
     /\ res_text r = None /\ res_blob r = None /\ res_type r = Some kind
     /\ msg = "Unexpected resource type: " ++ kind)
  \/ (item_type item <> "text" /\ item_type item <> "image"
      /\ item_type item <> "resource"
      /\ msg = "Unexpected content type: " ++ item_type item).
Proof.
  unfold decode_item.
  destruct (String.eqb_spec (item_type item) "text") as [_|Ht].
  { destruct (item_text item); simpl; discriminate. }
  destruct (String.eqb_spec (item_type item) "image") as [_|Hi].
  { destruct (item_data item); simpl; discriminate. }
  destruct (String.eqb_spec (item_type item) "resource") as [Hr|Hr].
  - destruct (item_resource item) as [r|]; simpl; [|discriminate].
    destruct (res_text r) eqn:Et; [discriminate|].
    destruct (res_blob r) as [[b|str_of]|] eqn:Eb.
    + unfold bytes_decode. destruct (utf8_error 0 b); discriminate.
    + discriminate.
    + destruct (res_type r) as [kind|] eqn:Ek; simpl; [|discriminate].
      intros H. injection H as <-. left. exists r, kind. auto 10.
  - intros H. injection H as <-. right. auto.
Qed.

Lemma decode_items_raises items :
  forall decoded_result e,
  decode_items decoded_result items = inl e ->
  exists item, In item items /\ decode_item item = inl e.
Proof.
  induction items as [|item rest IH]; simpl; intros acc e H; [discriminate|].
  destruct (decode_item item) as [e'|piece] eqn:E.
  - injection H as <-. exists item. auto.
  - destruct (IH _ _ H) as [item' [Hin H']]. exists item'. auto.
Qed.

(** X11: a [ToolException] of the decoder is one of four: the error flag
    is set and the message carries the content; the content is empty; some
    resource has neither [text] nor [blob] and the message names its
    [type]; or some item has a tag other than "text", "image" and
    "resource" and the message names that tag. *)
Theorem parse_tool_exception_messages
    (tool_result : CallToolResult) (msg : string) :
  _parse_mcp_tool_result tool_result = inl (ToolException msg) ->
  (isError tool_result = true
   /\ msg = "Tool execution failed: " ++ content_str (content tool_result))
  \/ (isError tool_result = false /\ content tool_result = []
      /\ msg = "Tool execution returned no content")
  \/ (exists item r kind,
        In item (content tool_result)
        /\ item_type item = "resource" /\ item_resource item = Some r
        /\ res_text r = None /\ res_blob r = None /\ res_type r = Some kind
        /\ msg = "Unexpected resource type: " ++ kind)
  \/ (exists item,
        In item (content tool_result)
        /\ item_type item <> "text" /\ item_type item <> "image"
        /\ item_type item <> "resource"
        /\ msg = "Unexpected content type: " ++ item_type item).
Proof.
  unfold _parse_mcp_tool_result.
  destruct (isError tool_result).
  { intros H. injection H as <-. left. auto. }
  destruct (content tool_result) as [|item rest].
  { intros H. injection H as <-. right. left. auto. }
  intros H. apply decode_items_raises in H.
  destruct H as [item' [Hin H]].
  destruct (decode_item_tool_exception _ _ H) as [[r [kind Hr]]|Hother].
  - right. right. left. exists item', r, kind. tauto.
  - right. right. right. exists item'. tauto.
Qed.

Lemma parse_tool_exception_messages_witness :
  exists item,
    In item [text_ab; audio_item]
    /\ item_type item <> "text" /\ item_type item <> "image"
    /\ item_type item <> "resource"
    /\ "Unexpected content type: audio"
       = "Unexpected content type: " ++ item_type item.
Proof.
  destruct (parse_tool_exception_messages
              {| content := [text_ab; audio_item]; isError := false |}
              "Unexpected content type: audio" eq_refl)
    as [[H _]|[[_ [H _]]|[[item [r [kind [_ [_ [_ [_ [_ [_ H]]]]]]]]]|H]]].
  - discriminate H.
  - discriminate H.
  - discriminate H.
  - exact H.
Defined.

(* ===================================================================== *)
(** ** More about the adapter *)
(* ===================================================================== *)

(** [_arun] in one equation. *)
Lemma arun_outcome (self : Adapter.t) (kwargs : dict) (tr : trace) :
  Adapter._arun self kwargs tr
  = (match conn_answer (Adapter.connector self) tr (Adapter.name self) kwargs with
     | inr tool_result =>
         inr match _parse_mcp_tool_result tool_result with
             | inr decoded => decoded
             | inl e =>
                 "Error parsing result: " ++ exn_str e ++ "; Raw content: "
                 ++ content_str (content tool_result)
             end
     | inl e =>
         if Adapter.handle_tool_error self
         then inr ("Error executing MCP tool: " ++ exn_str e)
         else inl e
     end,
     (tr ++ [CallTool (Adapter.name self) kwargs])%list).
Proof.
  unfold Adapter._arun, try_except, bind, call_tool, pure, ret, raise.
  destruct (conn_answer _ _ _ _) as [e|tool_result].
  - destruct (Adapter.handle_tool_error self); reflexivity.
  - destruct (_parse_mcp_tool_result tool_result); reflexivity.
Qed.

(** X12: whatever happens, [_arun] calls the connector exactly once, with
    the adapter's name and the arguments it was given. *)
Theorem arun_calls_connector_once
    (self : Adapter.t) (kwargs : dict) (tr : trace) :
  snd (Adapter._arun self kwargs tr)
  = (tr ++ [CallTool (Adapter.name self) kwargs])%list.
Proof. rewrite arun_outcome. reflexivity. Qed.

(** X13: [_arun] raises exactly when [handle_tool_error] is clear and the
    connector raised, and then it raises the connector's exception. *)
Theorem arun_raises_iff
    (self : Adapter.t) (kwargs : dict) (tr : trace) (e : exn) :
  fst (Adapter._arun self kwargs tr) = inl e
  <-> Adapter.handle_tool_error self = false
      /\ conn_answer (Adapter.connector self) tr (Adapter.name self) kwargs
         = inl e.
Proof.
  rewrite arun_outcome. simpl.
  destruct (conn_answer _ _ _ _) as [e'|tool_result].
  - destruct (Adapter.handle_tool_error self); split.
    + discriminate.
    + intros [H _]. discriminate H.
    + intros H. injection H as ->. split; reflexivity.
    + intros [_ H]. injection H as ->. reflexivity.
  - split; [discriminate | intros [_ H]; discriminate H].
Qed.

(** X14: when the connector returns, [_arun] returns the decoded string,
    and if decoding raises it returns, whatever [handle_tool_error] says,
    "Error parsing result: " with the exception's text and the content. *)
Theorem arun_connector_returned
    (self : Adapter.t) (kwargs : dict) (tr : trace)
    (tool_result : CallToolResult) :
  conn_answer (Adapter.connector self) tr (Adapter.name self) kwargs
  = inr tool_result ->
  fst (Adapter._arun self kwargs tr)
  = inr match _parse_mcp_tool_result tool_result with
        | inr decoded => decoded
        | inl e =>
            "Error parsing result: " ++ exn_str e ++ "; Raw content: "
            ++ content_str (content tool_result)
        end.
Proof. intros H. rewrite arun_outcome, H. reflexivity. Qed.

Lemma arun_connector_returned_witness :
  fst (Adapter._arun
         (Adapter.make ping_connector (Types.new_Tool "ping" None None None))
         [] [])
  = inr "pong"
  /\ fst (Adapter._arun
            (Adapter.make silent_connector
               (Types.new_Tool "ping" None None None))
            [] [])
     = inr ("Error parsing result: Tool execution returned no content; "
            ++ "Raw content: []").
Proof.
  split.
  - exact (arun_connector_returned
             (Adapter.make ping_connector
                (Types.new_Tool "ping" None None None))
             [] [] _ eq_refl).
  - exact (arun_connector_returned
             (Adapter.make silent_connector
                (Types.new_Tool "ping" None None None))
             [] [] _ eq_refl).
Defined.

(** X15: an adapter's name is never empty: it is the tool's name, or
    "NO NAME" for a tool whose name is empty. *)
Theorem adapter_name_not_empty (c : BaseConnector) (tool : Types.Tool) :
  Adapter.name (Adapter.make c tool) <> ""
  /\ (Adapter.name (Adapter.make c tool) = Types.name tool
      \/ (Types.name tool = ""
          /\ Adapter.name (Adapter.make c tool) = "NO NAME")).
Proof.
  unfold Adapter.make. simpl.
  destruct (String.eqb_spec (Types.name tool) "") as [E|E].
  - split; [discriminate | right; auto].
  - split; [exact E | left; reflexivity].
Qed.

(* ===================================================================== *)
(** ** More about the agent *)
(* ===================================================================== *)

(** X16: every tool an initialized agent holds was built from one of the
    connector's tools, is bound to the agent's connector, and never raises
    from [_arun]. *)
Theorem initialized_tools_never_raise (self : Agent.t) (a : Adapter.t) :
  In a (Agent.tools (Agent.initialize self)) ->
  (exists tool, In tool (conn_tools (Agent.connector self))
                /\ a = Adapter.make (Agent.connector self) tool)
  /\ Adapter.connector a = Agent.connector self
  /\ forall kwargs tr, exists s, fst (Adapter._arun a kwargs tr) = inr s.
Proof.
  simpl. unfold Agent._create_langchain_tools. intros Hin.
  apply in_map_iff in Hin. destruct Hin as [tool [<- Hin]].
  split; [exists tool; auto|]. split; [reflexivity|].
  intros kwargs tr. rewrite arun_outcome. simpl.
  destruct (conn_answer _ _ _ _); eexists; reflexivity.
Qed.

Lemma initialized_tools_never_raise_witness :
  Adapter.connector search_adapter = failing_connector
  /\ exists s,
       fst (Adapter._arun search_adapter [("q", VStr "rocq")] []) = inr s.
Proof.
  pose proof (initialized_tools_never_raise
                (Agent.__init__ failing_connector echo_llm None)
                search_adapter (or_introl eq_refl)) as [_ [Hc Hrun]].
  split; [exact Hc | exact (Hrun [("q", VStr "rocq")] [])].
Defined.

(** X17: on an agent that was just initialized, [run] without an override
    drives the loop with the adapters built from the connector's tools and
    the step limit given at construction, returns or raises what the loop
    does, and leaves the agent as it was. *)
Theorem run_after_initialize
    (self : Agent.t) (query : string) (chat_history : option (list value))
    (tr : trace) :
  let ready := Agent.initialize self in
  let history := match chat_history with Some h => h | None => [] end in
  let outcome :=
    drive (Agent.llm self) tr
          (map (Adapter.make (Agent.connector self))
               (conn_tools (Agent.connector self)))
          (Agent.max_steps self) query history in
  Agent.run query None chat_history (ready, tr)
  = (fst outcome,
     (ready,
      (tr ++ Invoke (Agent.max_steps self) query history :: snd outcome)%list)).
Proof.
  intros ready history outcome. unfold Agent.run, ready. simpl.
  unfold ainvoke. simpl. fold history.
  unfold Agent._create_langchain_tools. fold outcome.
  destruct outcome as [output caused]. reflexivity.
Qed.

(** X18: [run] writes the override into the executor only.  The agent's
    [connector], [llm], [max_steps] and [tools] are never changed by
    [run], so initializing again brings the step limit back to the one
    given at construction. *)
Theorem initialize_resets_step_limit
    (self : Agent.t) (query : string) (max_steps : option Z)
    (chat_history : option (list value)) (tr : trace) :
  let after := fst (snd (Agent.run query max_steps chat_history (self, tr))) in
  Agent.connector after = Agent.connector self
  /\ Agent.llm after = Agent.llm self
  /\ Agent.max_steps after = Agent.max_steps self
  /\ Agent.tools after = Agent.tools self
  /\ Agent.step_limit (Agent.initialize after) = Some (Agent.max_steps self).
Proof.
  unfold Agent.run.
  destruct (Agent.agent self) as [executor|]; simpl.
  - unfold ainvoke. destruct (drive _ _ _ _ _ _) as [output caused].
    simpl. repeat split.
  - repeat split.
Qed.
